(** * The Differential Evolution notebook: [differential_evolution]

    A shallow embedding of the code cell that declares [DEResult] and
    [differential_evolution], together with the benchmark cell it depends on
    ([sphere], [rosenbrock], [BOUNDS]) and the animation cell that consumes
    its result ([animate_de] with its inner [update]).  Python statements
    become computations in a small state-and-exception monad; a [raise]
    aborts whatever follows it.  What belongs to NumPy and matplotlib
    ([np.sum], [np.linspace], [np.exp], the figure) enters as an argument. *)

From Stdlib Require Import List String ZArith Bool FloatClass PrimFloat Lia.
From Stdlib Require Import DecimalString.
From Stdlib Require Uint63.
Import ListNotations.

Set Warnings "-inexact-float".
Local Open Scope Z_scope.

(** ** Python data *)

(** A Python [float] / [np.float64] is an IEEE-754 binary64 number. *)
Definition float : Type := PrimFloat.float.

(** A one-dimensional [np.ndarray] of floats; a population is a list of them
    (the rows of a two-dimensional array). *)
Definition ndarray : Type := list float.
Definition population : Type := list ndarray.

(** [list[tuple[float, float]]]: one [(min, max)] pair per dimension. *)
Definition bounds_t : Type := list (float * float).

(** Built-in exception classes, each with its message. *)
Inductive PyException : Type :=
| NotImplementedError (msg : string)
| ValueError (msg : string)
| TypeError (msg : string)
| ZeroDivisionError (msg : string)
| AssertionError (msg : string).

(** What a call ends with: a value, or an exception on its way to the caller. *)
Inductive Outcome (A : Type) : Type :=
| Returned (a : A)
| Raised (e : PyException).
Arguments Returned {A} a.
Arguments Raised {A} e.

(** [Callable[[np.ndarray], float]]: an objective may raise instead of
    returning. *)
Definition Callable : Type := ndarray -> Outcome float.

(** ** The world a cell runs in *)

(** What a run leaves behind that an observer can see. *)
Inductive Event : Type :=
| Evaluated (x : ndarray)          (* the objective was called on [x] *)
| Iterated (var : string) (k : Z). (* a [for var in range(..)] body was entered with [var = k] *)

(** [rng] is the state of NumPy's global generator (what [np.random.seed]
    sets); [log] grows by one event per objective call and loop iteration. *)
Record World : Type := mkWorld { rng : N; log : list Event }.

(** ** Statements as computations *)

Definition M (A : Type) : Type := World -> Outcome A * World.

Definition ret {A} (a : A) : M A := fun w => (Returned a, w).

Definition bind {A B} (m : M A) (k : A -> M B) : M B :=
  fun w =>
    match m w with
    | (Returned a, w') => k a w'
    | (Raised e, w') => (Raised e, w')
    end.

(** [raise e] *)
Definition raise {A} (e : PyException) : M A := fun w => (Raised e, w).

Declare Scope py_scope.
Delimit Scope py_scope with py.
Notation "x <- m ;; k" := (bind m (fun x => k))
  (at level 100, m at next level, right associativity) : py_scope.
Notation "m ;; k" := (bind m (fun _ => k))
  (at level 100, right associativity) : py_scope.
Local Open Scope py_scope.

Definition tell (ev : Event) : M unit :=
  fun w => (Returned tt, mkWorld (rng w) (log w ++ [ev])).

(** [func(x)]: the call is logged, and an exception of the objective is an
    exception of the caller. *)
Definition call (func : Callable) (x : ndarray) : M float :=
  tell (Evaluated x) ;;
  match func x with
  | Returned y => ret y
  | Raised e => raise e
  end.

(** The statement [...]: the [Ellipsis] object is evaluated and dropped. *)
Definition ellipsis : M unit := ret tt.

(** [range(n)] is empty for [n <= 0]. *)
Definition range (n : Z) : list Z := map Z.of_nat (seq 0 (Z.to_nat n)).

Fixpoint for_each (var : string) (ks : list Z) (body : Z -> M unit) : M unit :=
  match ks with
  | [] => ret tt
  | k :: ks' => tell (Iterated var k) ;; body k ;; for_each var ks' body
  end.

(** [for var in range(n): body] *)
Definition for_range (var : string) (n : Z) (body : Z -> M unit) : M unit :=
  for_each var (range n) body.

(** [len(xs)] and [np.array([...])] *)
Definition len {A} (xs : list A) : Z := Z.of_nat (List.length xs).
Definition np_array (xs : list float) : ndarray := xs.

(** ** The benchmark cell *)

(** Arithmetic on whole arrays, element by element; both arrays of a binary
    operation have one shape wherever the cell uses it. *)
Definition elementwise (f : float -> float) (a : ndarray) : ndarray := map f a.

Definition elementwise2 (f : float -> float -> float) (a b : ndarray)
  : ndarray :=
  map (fun p => f (fst p) (snd p)) (combine a b).

(** [a ** 2] and [a ** 2.0], which NumPy computes as [a * a]. *)
Definition square (a : float) : float := (a * a)%float.

(** [float(np.sum(x**2))].  The reduction [np.sum] belongs to NumPy and is an
    argument here: in which order it adds (pairwise, from eight elements on)
    is the library's business, and each theorem says what it needs of it. *)
Definition sphere (np_sum : ndarray -> float) : Callable :=
  fun x => Returned (np_sum (elementwise square x)).

(** A reduction that adds from left to right, starting at zero: a stand-in
    for [np.sum] where a concrete objective is wanted. *)
Definition sum_left_to_right (a : ndarray) : float :=
  fold_left PrimFloat.add a 0%float.

(** [BOUNDS = [(-5, 5), (-5, 5)]] *)
Definition BOUNDS : bounds_t := [((-5)%float, 5%float); ((-5)%float, 5%float)].

(** ** The cell under study *)

Record DEResult : Type := mkDEResult {
  best_vector : ndarray;
  best_value : float;
  history : list population  (* History of populations for animation *)
}.

(** The statements of [differential_evolution] that follow its first one.
    The exercise blocks are comments only, so the two loops hold nothing but
    [...], and control falls off the end: the value is [None]. *)
Definition de_after_raise (func : Callable) (bounds : bounds_t) (pop_size : Z)
    (F CR : float) (max_gen : Z) : M (option DEResult) :=
  let dimensions := len bounds in
  let lower_bounds := np_array (map fst bounds) in
  let upper_bounds := np_array (map snd bounds) in
  for_range "generation" max_gen (fun generation =>
    ellipsis ;;
    for_range "i" pop_size (fun i =>
      ellipsis)) ;;
  ret None.

Definition differential_evolution (func : Callable) (bounds : bounds_t)
    (pop_size : Z) (F CR : float) (max_gen : Z) : M (option DEResult) :=
  (raise (NotImplementedError "Not implemented") : M unit) ;;
  de_after_raise func bounds pop_size F CR max_gen.


Definition world0 : World := mkWorld 0%N [].

(** ** Observations on a run *)

(** A run returns: its outcome is some value. *)
Definition returns {A} (m : M A) (w : World) : Prop :=
  exists a w', m w = (Returned a, w').

(** The history a caller gets to see, if any. *)
Definition produced_history (o : Outcome (option DEResult))
  : option (list population) :=
  match o with
  | Returned (Some r) => Some (history r)
  | _ => None
  end.

(** What the two loops write to the log: one entry per iteration. *)
Definition iterations (var : string) (ks : list Z) : list Event :=
  map (Iterated var) ks.

Definition generation_events (pop_size : Z) (generation : Z) : list Event :=
  Iterated "generation" generation :: iterations "i" (range pop_size).

Definition is_iteration (ev : Event) : bool :=
  match ev with
  | Iterated _ _ => true
  | Evaluated _ => false
  end.

(** ** Vocabulary of the specification *)

(** Neither an infinity nor a NaN. *)
Definition is_finite (x : float) : bool :=
  match classify x with
  | PInf | NInf | NaN => false
  | _ => true
  end.

(** The inputs the specification calls malformed: a non-finite bound, an
    empty bounds list, or fewer than four individuals. *)
Definition spec_malformed (bounds : bounds_t) (pop_size : Z) : bool :=
  negb (forallb (fun b => is_finite (fst b) && is_finite (snd b)) bounds)
  || (len bounds =? 0)
  || (pop_size <? 4).

(** An exception that blames the arguments of the call.  In Python that is
    [ValueError] (a bad value) or [TypeError] (a bad type), and the notebook's
    own [animate_de] rejects a bad [bounds] with an [assert];
    [NotImplementedError] says that the body is yet to be written. *)
Definition is_configuration_error (e : PyException) : bool :=
  match e with
  | ValueError _ | TypeError _ | AssertionError _ => true
  | NotImplementedError _ | ZeroDivisionError _ => false
  end.

Definition rejected_as_configuration_error {A} (m : M A) (w : World) : Prop :=
  exists e, fst (m w) = Raised e /\ is_configuration_error e = true.

(** An objective that raises on every input. *)
Definition always_raises (func : Callable) : Prop :=
  forall x, exists e, func x = Raised e.

(** The run ends in an exception that the objective raised. *)
Definition propagates_objective_exception {A} (func : Callable) (m : M A)
    (w : World) : Prop :=
  exists x e, func x = Raised e /\ fst (m w) = Raised e.

(** [lambda x: 1.0 / 0.0] *)
Definition failing_objective : Callable :=
  fun _ => Raised (ZeroDivisionError "float division by zero").


(** The run hands its caller a [DEResult] whose history has [n] snapshots. *)
Definition returns_history_of_length (m : M (option DEResult)) (w : World)
    (n : nat) : Prop :=
  exists r w', m w = (Returned (Some r), w') /\ List.length (history r) = n.

(** The one-dimensional scenario: [bounds=[(-5, 5)]], [pop_size=4],
    [max_gen=1], the rest at their defaults. *)
Definition one_generation_call : M (option DEResult) :=
  differential_evolution (sphere sum_left_to_right) [((-5)%float, 5%float)] 4
                         0.8%float 0.9%float 1.

(** ** The rest of the benchmark cell *)

(** [float(np.sum(100.0 * (x[1:] - x[:-1] ** 2.0) ** 2.0
                   + (1.0 - x[:-1]) ** 2.0))].
    [x[1:]] is [tl x] and [x[:-1]] is [removelast x]; [np.sum] is an argument
    as it is for [sphere]. *)
Definition rosenbrock (np_sum : ndarray -> float) : Callable :=
  fun x =>
    Returned
      (np_sum
         (elementwise2 PrimFloat.add
            (elementwise (PrimFloat.mul 100)
               (elementwise square
                  (elementwise2 PrimFloat.sub
                     (tl x) (elementwise square (removelast x)))))
            (elementwise square
               (elementwise (PrimFloat.sub 1) (removelast x))))).

(** ** The animation cell *)

(** *** Two-dimensional arrays *)

(** [ncols] is [shape[1]]; it is kept beside the rows because an array may
    have no row at all. *)
Record ndarray2 : Type := mkArray2 { ncols : nat; rows : list ndarray }.

Definition shape (a : ndarray2) : nat * nat := (List.length (rows a), ncols a).

(** [a.ravel()]: the rows one after the other. *)
Definition ravel (a : ndarray2) : ndarray := List.concat (rows a).

(** [a.T] *)
Definition transpose (a : ndarray2) : ndarray2 :=
  mkArray2 (List.length (rows a))
           (map (fun k => map (fun r => nth k r 0%float) (rows a))
                (seq 0 (ncols a))).

(** [np.meshgrid(x, y)]: both results have one row per element of [y] and
    one column per element of [x]. *)
Definition meshgrid (x y : ndarray) : ndarray2 * ndarray2 :=
  (mkArray2 (List.length x) (map (fun _ => x) y),
   mkArray2 (List.length x) (map (fun yi => map (fun _ => yi) x) y)).

Definition string_of_nat (n : nat) : string :=
  NilZero.string_of_uint (Nat.to_uint n).

Definition string_of_Z (z : Z) : string :=
  NilZero.string_of_int (Z.to_int z).

(** [np.vstack([a, b])] *)
Definition vstack (a b : ndarray) : M ndarray2 :=
  if (List.length a =? List.length b)%nat
  then ret (mkArray2 (List.length a) [a; b])
  else raise (ValueError
    ("all the input array dimensions except for the concatenation axis must match exactly, but along dimension 1, the array at index 0 has size "
       ++ string_of_nat (List.length a)
       ++ " and the array at index 1 has size "
       ++ string_of_nat (List.length b))).

Fixpoint chunks (r c : nat) (a : ndarray) : list ndarray :=
  match r with
  | O => []
  | S r' => firstn c a :: chunks r' c (skipn c a)
  end.

(** [a.reshape(shp)] *)
Definition reshape (a : ndarray) (shp : nat * nat) : M ndarray2 :=
  if (List.length a =? fst shp * snd shp)%nat
  then ret (mkArray2 (snd shp) (chunks (fst shp) (snd shp) a))
  else raise (ValueError
    ("cannot reshape array of size " ++ string_of_nat (List.length a)
       ++ " into shape (" ++ string_of_nat (fst shp) ++ ","
       ++ string_of_nat (snd shp) ++ ")")).

(** [[func(pt) for pt in pts]] *)
Fixpoint map_call (func : Callable) (pts : list ndarray) : M (list float) :=
  match pts with
  | [] => ret []
  | pt :: pts' =>
      z <- call func pt ;;
      zs <- map_call func pts' ;;
      ret (z :: zs)
  end.

(** [assert cond, msg] *)
Definition assert_ (cond : bool) (msg : string) : M unit :=
  if cond then ret tt else raise (AssertionError msg).

(** *** The inner function [update] *)

(** What [update] asks of the axes, in the order it asks. *)
Inductive PlotCall : Type :=
| RemovePathCollections                     (* the loop over [ax.collections] *)
| SetTitle (title : string)                 (* [ax.set_title(..)] *)
| Scatter (xs ys : ndarray) (alpha : float). (* [ax.scatter(xs, ys, .., alpha=alpha)] *)

(** How a call of [update] ends: with [()], or with an [IndexError]. *)
Inductive Drawn : Type :=
| ReturnedUnit
| IndexError (msg : string).

Definition DECAY_CONSTANT : Z := 10.

(** An [int] as a [float]: exact for [|z| <= 2^53], the range the theorems
    on [update] stay in; beyond it Python rounds once where this rounds
    twice, and past [2^63] this wraps. *)
Definition float_of_Z (z : Z) : float :=
  match z with
  | Z0 => 0%float
  | Zpos _ => of_uint63 (Uint63.of_Z z)
  | Zneg p => (- of_uint63 (Uint63.of_Z (Zpos p)))%float
  end.

(** [float(np.exp(-age / DECAY_CONSTANT))]; the exponential is NumPy's.
    For [|age| <= 2^53] the quotient is the one correctly rounded division
    that Python's [int / int] is; an age so large that Python raises
    [OverflowError] is outside this model. *)
Definition alpha_of_age (np_exp : float -> float) (age : Z) : float :=
  np_exp (float_of_Z (- age) / float_of_Z DECAY_CONSTANT)%float.

(** [pop[:, k]] *)
Definition column (pop : ndarray2) (k : nat) : ndarray + string :=
  if (k <? ncols pop)%nat
  then inl (map (fun r => nth k r 0%float) (rows pop))
  else inr ("index " ++ string_of_nat k
              ++ " is out of bounds for axis 1 with size "
              ++ string_of_nat (ncols pop))%string.

(** The loop [for j in range(i + 1)] of [update], the calls made so far in
    [calls]. *)
Fixpoint scatter_generations (np_exp : float -> float)
    (history : list ndarray2) (i : Z) (js : list Z) (calls : list PlotCall)
  : Drawn * list PlotCall :=
  match js with
  | [] => (ReturnedUnit, calls)
  | j :: js' =>
      let age := i - j in
      let alpha := alpha_of_age np_exp age in
      match nth_error history (Z.to_nat j) with
      | None => (IndexError "list index out of range", calls)
      | Some pop_j =>
          match column pop_j 0 with
          | inr msg => (IndexError msg, calls)
          | inl xs =>
              match column pop_j 1 with
              | inr msg => (IndexError msg, calls)
              | inl ys =>
                  scatter_generations np_exp history i js'
                                      (calls ++ [Scatter xs ys alpha])
              end
          end
      end
  end.

Definition update (np_exp : float -> float) (history : list ndarray2) (i : Z)
  : Drawn * list PlotCall :=
  scatter_generations np_exp history i (range (i + 1))
    [RemovePathCollections; SetTitle ("Generation " ++ string_of_Z i)].

(** *** [animate_de] *)

(** The points the objective is evaluated at: [np.vstack([X.ravel(),
    Y.ravel()]).T], row by row. *)
Definition coords_of (X Y : ndarray2) : M (list ndarray) :=
  stacked <- vstack (ravel X) (ravel Y) ;;
  ret (rows (transpose stacked)).

(** The statements from [plt.subplots] to the final [print] belong to
    matplotlib; they are the argument [render], which is handed everything
    they read.  [np.linspace] and [np.exp] are NumPy's. *)
Definition animate_de
    (np_linspace : float -> float -> Z -> ndarray)
    (np_exp : float -> float)
    (render : float * float -> float * float ->
              ndarray2 -> ndarray2 -> ndarray2 ->
              (Z -> Drawn * list PlotCall) -> Z -> string -> M unit)
    (func : Callable) (history : list ndarray2) (bounds : bounds_t)
    (frames : option Z) (filename : string) : M unit :=
  let frames :=
    match frames with
    | None => len history
    | Some n => n
    end in
  assert_ (len bounds =? 2)
    "This function only supports 2D visualization (expected 2 bounds)." ;;
  let x_bounds := (fst (nth 0 bounds (0, 0)%float),
                   snd (nth 0 bounds (0, 0)%float)) in
  let y_bounds := (fst (nth 1 bounds (0, 0)%float),
                   snd (nth 1 bounds (0, 0)%float)) in
  let x := np_linspace (fst x_bounds) (snd x_bounds) 200 in
  let y := np_linspace (fst y_bounds) (snd y_bounds) 200 in
  let XY := meshgrid x y in
  coords <- coords_of (fst XY) (snd XY) ;;
  zs <- map_call func coords ;;
  Z <- reshape (np_array zs) (shape (fst XY)) ;;
  render x_bounds y_bounds (fst XY) (snd XY) Z
         (update np_exp history) frames filename.

(** The grid in the order the objective meets it: [x] runs fastest. *)
Definition grid (x y : ndarray) : list ndarray :=
  flat_map (fun yi => map (fun xj => [xj; yi]) x) y.

(** An objective that returns on every input. *)
Definition never_raises (func : Callable) : Prop :=
  forall pt, exists z, func pt = Returned z.

(** What [ax.scatter] is asked for generation [j] when frame [i] is drawn. *)
Definition scatter_of (np_exp : float -> float) (i : Z) (j : Z)
    (pop : ndarray2) : PlotCall :=
  Scatter (map (fun r => nth 0 r 0%float) (rows pop))
          (map (fun r => nth 1 r 0%float) (rows pop))
          (alpha_of_age np_exp (i - j)).

Definition scatters_of (np_exp : float -> float) (i : Z)
    (pops : list ndarray2) : list PlotCall :=
  map (fun jp => scatter_of np_exp i (Z.of_nat (fst jp)) (snd jp))
      (combine (seq 0 (List.length pops)) pops).

(** A stand-in for [np.linspace] that has the number of samples right, for
    running the definitions on an example. *)
Definition linspace_sketch (start stop : float) (num : Z) : ndarray :=
  map (fun k => (start + float_of_Z k * ((stop - start) / float_of_Z (num - 1)))%float)
      (range num).

(** ** How the monad runs *)

Lemma bind_ret {A B} (a : A) (k : A -> M B) (w : World) :
  bind (ret a) k w = k a w.
Proof. reflexivity. Qed.

Lemma bind_returned {A B} (m : M A) (k : A -> M B) (w w' : World) (a : A) :
  m w = (Returned a, w') -> bind m k w = k a w'.
Proof. intros H. unfold bind. now rewrite H. Qed.

(** A [raise] cuts off its continuation and leaves the world as it found it. *)
Lemma raise_bind {A B} (e : PyException) (k : A -> M B) (w : World) :
  bind (raise e) k w = (Raised e, w).
Proof. reflexivity. Qed.

Lemma tell_bind {B} (ev : Event) (k : unit -> M B) (w : World) :
  bind (tell ev) k w = k tt (mkWorld (rng w) (log w ++ [ev])).
Proof. reflexivity. Qed.

(** ** The statements after the [raise], were they ever reached *)

Lemma for_each_ellipsis (var : string) (ks : list Z) :
  forall w,
    for_each var ks (fun _ => ellipsis) w
    = (Returned tt, mkWorld (rng w) (log w ++ iterations var ks)).
Proof.
  induction ks as [|k ks IH]; intros w; cbn [for_each iterations map].
  - unfold ret. rewrite app_nil_r. now destruct w.
  - rewrite tell_bind. unfold ellipsis at 1. rewrite bind_ret, IH.
    cbn [rng log]. unfold iterations. now rewrite <- app_assoc.
Qed.

Lemma for_each_generation (pop_size : Z) (ks : list Z) :
  forall w,
    for_each "generation" ks
      (fun _ => ellipsis ;; for_range "i" pop_size (fun _ => ellipsis)) w
    = (Returned tt,
       mkWorld (rng w) (log w ++ flat_map (generation_events pop_size) ks)).
Proof.
  induction ks as [|k ks IH]; intros w; cbn [for_each flat_map].
  - unfold ret. rewrite app_nil_r. now destruct w.
  - rewrite tell_bind.
    erewrite bind_returned.
    2:{ unfold ellipsis. rewrite bind_ret. unfold for_range.
        apply for_each_ellipsis. }
    rewrite IH. cbn [rng log]. unfold generation_events.
    now rewrite <- !app_assoc.
Qed.

(** Run on their own, the statements after the [raise] only iterate: they
    return [None], whatever the arguments. *)
Lemma de_after_raise_unfold func bounds pop_size F CR max_gen w :
  de_after_raise func bounds pop_size F CR max_gen w
  = (Returned None,
     mkWorld (rng w)
             (log w ++ flat_map (generation_events pop_size) (range max_gen))).
Proof.
  unfold de_after_raise, for_range.
  erewrite bind_returned by apply for_each_generation.
  reflexivity.
Qed.

Lemma generation_events_iterate (pop_size : Z) (ks : list Z) :
  forallb is_iteration (flat_map (generation_events pop_size) ks) = true.
Proof.
  induction ks as [|k ks IH]; [reflexivity|].
  cbn [flat_map]. rewrite forallb_app, IH, andb_true_r.
  unfold generation_events, iterations. cbn [forallb is_iteration andb].
  apply forallb_forall. intros ev Hev.
  apply in_map_iff in Hev. destruct Hev as (i & <- & _). reflexivity.
Qed.

(** Nothing after the [raise] calls the objective: what those statements add
    to the log are loop iterations only. *)
Lemma de_after_raise_evaluates_nothing func bounds pop_size F CR max_gen w :
  exists evs,
    log (snd (de_after_raise func bounds pop_size F CR max_gen w))
    = log w ++ evs
    /\ forallb is_iteration evs = true.
Proof.
  exists (flat_map (generation_events pop_size) (range max_gen)).
  rewrite de_after_raise_unfold. cbn [snd log].
  split; [reflexivity | apply generation_events_iterate].
Qed.

(** The remainder on the one-dimensional scenario, had it been reached: one
    generation, four targets, no evaluation, [None] at the end. *)
Example de_after_raise_one_generation :
  de_after_raise (sphere sum_left_to_right) [((-5)%float, 5%float)] 4 0.8%float 0.9%float 1 world0
  = (Returned None,
     mkWorld 0 [Iterated "generation" 0; Iterated "i" 0; Iterated "i" 1;
                Iterated "i" 2; Iterated "i" 3]).
Proof. reflexivity. Qed.

(** The body holds no check of its arguments: even the statements after the
    [raise] accept three individuals and an infinite search interval. *)
Example de_after_raise_checks_nothing :
  spec_malformed [(neg_infinity, infinity)] 3 = true
  /\ fst (de_after_raise (sphere sum_left_to_right) [(neg_infinity, infinity)] 3
                         0.8%float 0.9%float 0 world0)
     = Returned None.
Proof. split; reflexivity. Qed.

(** What a call of a raising objective looks like from outside: the
    evaluation is logged and the objective's own exception comes out. *)
Example call_failing_objective :
  call failing_objective [1%float] world0
  = (Raised (ZeroDivisionError "float division by zero"),
     mkWorld 0 [Evaluated [1%float]]).
Proof. reflexivity. Qed.

(** ** The whole behaviour of the cell's function *)

Lemma differential_evolution_unfold func bounds pop_size F CR max_gen w :
  differential_evolution func bounds pop_size F CR max_gen w
  = (Raised (NotImplementedError "Not implemented"), w).
Proof. unfold differential_evolution. apply raise_bind. Qed.

Lemma differential_evolution_never_returns func bounds pop_size F CR max_gen w :
  ~ returns (differential_evolution func bounds pop_size F CR max_gen) w.
Proof.
  intros (a & w' & H).
  rewrite differential_evolution_unfold in H. discriminate H.
Qed.

(** ** The stub *)

(** C2: whatever the objective, the bounds and the hyperparameters, a call of
    [differential_evolution] ends in [NotImplementedError], raised by its first
    statement; no call returns a [DEResult] (or anything else); the world is
    left untouched, and the statements after the [raise] are dead: putting any
    other code in their place gives the same run. *)
Theorem differential_evolution_raises_NotImplementedError :
  forall func bounds pop_size F CR max_gen w,
    fst (differential_evolution func bounds pop_size F CR max_gen w)
      = Raised (NotImplementedError "Not implemented")
    /\ ~ returns (differential_evolution func bounds pop_size F CR max_gen) w
    /\ snd (differential_evolution func bounds pop_size F CR max_gen w) = w
    /\ forall rest : M (option DEResult),
         ((raise (NotImplementedError "Not implemented") : M unit) ;; rest) w
         = differential_evolution func bounds pop_size F CR max_gen w.
Proof.
  intros func bounds pop_size F CR max_gen w.
  split; [| split; [| split]].
  - now rewrite differential_evolution_unfold.
  - apply differential_evolution_never_returns.
  - now rewrite differential_evolution_unfold.
  - intros rest. rewrite differential_evolution_unfold. apply raise_bind.
Qed.

(** ** Malformed input *)

(** C7, as stated, fails: with three individuals (fewer than the four that
    mutation needs) the call is not rejected as a configuration error; what
    the caller sees is [NotImplementedError]. *)
Lemma malformed_input_not_a_configuration_error :
  spec_malformed BOUNDS 3 = true
  /\ ~ rejected_as_configuration_error
         (differential_evolution (sphere sum_left_to_right) BOUNDS 3 0.8%float 0.9%float 100)
         world0.
Proof.
  split; [reflexivity|].
  intros (e & He & Hcfg).
  rewrite differential_evolution_unfold in He. cbn [fst] in He.
  injection He as <-. discriminate Hcfg.
Qed.

(** C7, amended: a call with malformed input ends in
    [NotImplementedError("Not implemented")] before any evaluation of the
    objective and before the generation loop starts (the world, log included,
    is as it was); that exception is not a configuration error, and it is the
    one every other choice of bounds and population size gets as well. *)
Theorem malformed_input_raises_NotImplementedError :
  forall func bounds pop_size F CR max_gen w,
    spec_malformed bounds pop_size = true ->
    differential_evolution func bounds pop_size F CR max_gen w
      = (Raised (NotImplementedError "Not implemented"), w)
    /\ is_configuration_error (NotImplementedError "Not implemented") = false
    /\ forall bounds' pop_size',
         differential_evolution func bounds' pop_size' F CR max_gen w
         = differential_evolution func bounds pop_size F CR max_gen w.
Proof.
  intros func bounds pop_size F CR max_gen w _.
  split; [apply differential_evolution_unfold | split; [reflexivity|]].
  intros bounds' pop_size'. now rewrite !differential_evolution_unfold.
Qed.

Lemma malformed_input_raises_NotImplementedError_witness :
  spec_malformed [(neg_infinity, infinity)] 3 = true
  /\ differential_evolution (sphere sum_left_to_right) [(neg_infinity, infinity)] 3
                            0.8%float 0.9%float 100 world0
     = (Raised (NotImplementedError "Not implemented"), world0).
Proof.
  split; [reflexivity|].
  apply (malformed_input_raises_NotImplementedError
           (sphere sum_left_to_right) [(neg_infinity, infinity)] 3 0.8%float 0.9%float 100 world0).
  reflexivity.
Defined.

(** ** An objective that raises *)

(** C8, as stated, fails: with an objective that raises [ZeroDivisionError]
    on every input, the exception the caller gets is not one the objective
    raised. *)
Lemma failing_objective_exception_not_propagated :
  always_raises failing_objective
  /\ ~ propagates_objective_exception failing_objective
         (differential_evolution failing_objective BOUNDS 50
                                 0.8%float 0.9%float 100)
         world0.
Proof.
  split.
  - intros x. now exists (ZeroDivisionError "float division by zero").
  - intros (x & e & Hx & He).
    rewrite differential_evolution_unfold in He. cbn [fst] in He.
    unfold failing_objective in Hx. congruence.
Qed.

(** C8, amended: with an objective that always raises, the call returns no
    [DEResult], default or other; it ends in
    [NotImplementedError("Not implemented")] and never calls the objective
    (no evaluation enters the log), so nothing the objective would raise
    reaches the caller: the run is the same for every objective. *)
Theorem raising_objective_is_never_called :
  forall func bounds pop_size F CR max_gen w,
    always_raises func ->
    fst (differential_evolution func bounds pop_size F CR max_gen w)
      = Raised (NotImplementedError "Not implemented")
    /\ ~ returns (differential_evolution func bounds pop_size F CR max_gen) w
    /\ log (snd (differential_evolution func bounds pop_size F CR max_gen w))
       = log w
    /\ forall func' : Callable,
         differential_evolution func' bounds pop_size F CR max_gen w
         = differential_evolution func bounds pop_size F CR max_gen w.
Proof.
  intros func bounds pop_size F CR max_gen w _.
  split; [| split; [| split]].
  - now rewrite differential_evolution_unfold.
  - apply differential_evolution_never_returns.
  - now rewrite differential_evolution_unfold.
  - intros func'. now rewrite !differential_evolution_unfold.
Qed.

Lemma raising_objective_is_never_called_witness :
  fst (differential_evolution failing_objective BOUNDS 50
                              0.8%float 0.9%float 100 world0)
  = Raised (NotImplementedError "Not implemented").
Proof.
  apply (raising_objective_is_never_called
           failing_objective BOUNDS 50 0.8%float 0.9%float 100 world0).
  intros x. exists (ZeroDivisionError "float division by zero"). reflexivity.
Defined.

(** ** Two runs from the same seed *)



(** ** The result of a run *)

(** C10, as stated, fails: the run with [bounds=[(-5, 5)]], [pop_size=4] and
    [max_gen=1] ends in [NotImplementedError] and so does not hand back a
    history of exactly one generation. *)
Lemma one_generation_call_returns_no_history :
  one_generation_call world0
  = (Raised (NotImplementedError "Not implemented"), world0)
  /\ ~ returns_history_of_length one_generation_call world0 1.
Proof.
  split.
  - unfold one_generation_call. apply differential_evolution_unfold.
  - intros (r & w' & H & _).
    unfold one_generation_call in H.
    rewrite differential_evolution_unfold in H. discriminate H.
Qed.

(** C10, amended: no run of [differential_evolution] completes: every call
    ends in [NotImplementedError("Not implemented")], the world as it was,
    so none hands back a [DEResult]: there is no best vector, no best value
    and no history, of any length, for [max_gen = 1] as for every other
    budget.  The statements after the [raise] would not build one either: on
    their own they return [None]. *)
Theorem no_run_returns_a_history :
  forall func bounds pop_size F CR max_gen w,
    differential_evolution func bounds pop_size F CR max_gen w
      = (Raised (NotImplementedError "Not implemented"), w)
    /\ ~ returns (differential_evolution func bounds pop_size F CR max_gen) w
    /\ produced_history
         (fst (differential_evolution func bounds pop_size F CR max_gen w))
       = None
    /\ (forall n : nat,
          ~ returns_history_of_length
              (differential_evolution func bounds pop_size F CR max_gen) w n)
    /\ fst (de_after_raise func bounds pop_size F CR max_gen w)
       = Returned None.
Proof.
  intros func bounds pop_size F CR max_gen w.
  split; [apply differential_evolution_unfold |].
  split; [apply differential_evolution_never_returns |].
  split; [now rewrite differential_evolution_unfold |].
  split.
  - intros n (r & w' & H & _).
    rewrite differential_evolution_unfold in H. discriminate H.
  - now rewrite de_after_raise_unfold.
Qed.

(** ** The benchmark functions at their minima and on short input *)

Lemma removelast_repeat {A} (a : A) (n : nat) :
  removelast (repeat a n) = repeat a (Nat.pred n).
Proof.
  induction n as [|n IH]; [reflexivity|].
  destruct n as [|n]; [reflexivity|].
  cbn [Nat.pred] in *. change (repeat a (S (S n))) with (a :: repeat a (S n)).
  change (removelast (a :: repeat a (S n)))
    with (a :: removelast (repeat a (S n))).
  now rewrite IH.
Qed.

Lemma tl_repeat {A} (a : A) (n : nat) : tl (repeat a n) = repeat a (Nat.pred n).
Proof. now destruct n. Qed.

Lemma combine_repeat {A B} (a : A) (b : B) (n : nat) :
  combine (repeat a n) (repeat b n) = repeat (a, b) n.
Proof. induction n as [|n IH]; [reflexivity|]. cbn. now rewrite IH. Qed.

Lemma sum_left_to_right_zeros (k : nat) :
  sum_left_to_right (repeat 0%float k) = 0%float.
Proof.
  unfold sum_left_to_right.
  induction k as [|k IH]; [reflexivity|].
  cbn [repeat fold_left].
  now replace (0 + 0)%float with 0%float by reflexivity.
Qed.

(** X1: on an array of length zero or one, [rosenbrock] is [0.0] whatever the
    element is (a NaN or an infinity included): both slices are empty, and
    the sum of nothing is zero. *)
Theorem rosenbrock_short_input :
  forall (np_sum : ndarray -> float) (x : ndarray),
    np_sum [] = 0%float ->
    (List.length x <= 1)%nat ->
    rosenbrock np_sum x = Returned 0%float.
Proof.
  intros np_sum x Hsum Hlen. unfold rosenbrock.
  destruct x as [|a [|b x]]; cbn in Hlen |- *; try lia; now rewrite Hsum.
Qed.

Lemma rosenbrock_short_input_witness :
  rosenbrock sum_left_to_right [nan] = Returned 0%float.
Proof.
  apply (rosenbrock_short_input sum_left_to_right [nan]).
  - reflexivity.
  - cbn. lia.
Defined.

(** X2: at the vector of ones, of any length, [rosenbrock] is [0.0], given
    only that [np.sum] of zeros is zero: every term of the sum is exactly
    zero there. *)
Theorem rosenbrock_at_ones :
  forall (np_sum : ndarray -> float) (n : nat),
    (forall k, np_sum (repeat 0%float k) = 0%float) ->
    rosenbrock np_sum (repeat 1%float n) = Returned 0%float.
Proof.
  intros np_sum n Hsum. unfold rosenbrock, elementwise, elementwise2.
  rewrite removelast_repeat, tl_repeat.
  rewrite !map_repeat, combine_repeat, !map_repeat, combine_repeat, map_repeat.
  cbn [fst snd].
  replace (100 * square (1 - square 1) + square (1 - 1))%float
    with 0%float by reflexivity.
  now rewrite Hsum.
Qed.

Lemma rosenbrock_at_ones_witness :
  rosenbrock sum_left_to_right (repeat 1%float 5) = Returned 0%float.
Proof.
  apply (rosenbrock_at_ones sum_left_to_right 5).
  exact sum_left_to_right_zeros.
Defined.

(** X3: at the origin, in any dimension, [sphere] is [0.0], given only that
    [np.sum] of zeros is zero: every square is exactly zero there. *)
Theorem sphere_at_origin :
  forall (np_sum : ndarray -> float) (n : nat),
    (forall k, np_sum (repeat 0%float k) = 0%float) ->
    sphere np_sum (repeat 0%float n) = Returned 0%float.
Proof.
  intros np_sum n Hsum. unfold sphere, elementwise.
  rewrite map_repeat.
  replace (square 0)%float with 0%float by reflexivity.
  now rewrite Hsum.
Qed.

Lemma sphere_at_origin_witness :
  sphere sum_left_to_right (repeat 0%float 9) = Returned 0%float.
Proof.
  apply (sphere_at_origin sum_left_to_right 9).
  exact sum_left_to_right_zeros.
Defined.

(** ** [animate_de]: the guard *)

(** X4: with a [bounds] list of any length but two, [animate_de] raises
    [AssertionError] before the objective is evaluated even once and before
    anything is drawn or saved, whatever the other arguments. *)
Theorem animate_de_rejects_bounds_not_2d :
  forall np_linspace np_exp render func history bounds frames filename w,
    len bounds <> 2 ->
    animate_de np_linspace np_exp render func history bounds frames filename w
    = (Raised (AssertionError
         "This function only supports 2D visualization (expected 2 bounds)."),
       w).
Proof.
  intros np_linspace np_exp render func history bounds frames filename w Hlen.
  unfold animate_de, assert_.
  destruct (len bounds =? 2) eqn:E.
  - apply Z.eqb_eq in E. contradiction.
  - apply raise_bind.
Qed.

Lemma animate_de_rejects_bounds_not_2d_witness :
  animate_de linspace_sketch (fun a => a)
             (fun _ _ _ _ _ _ _ _ => ret tt)
             (sphere sum_left_to_right) [] [((-5)%float, 5%float)] None "de_animation.gif" world0
  = (Raised (AssertionError
       "This function only supports 2D visualization (expected 2 bounds)."),
     world0).
Proof.
  apply (animate_de_rejects_bounds_not_2d
           linspace_sketch (fun a => a) (fun _ _ _ _ _ _ _ _ => ret tt)
           (sphere sum_left_to_right) [] [((-5)%float, 5%float)] None "de_animation.gif" world0).
  cbn. lia.
Defined.

(** ** [animate_de]: the grid *)

Lemma combine_app_same {A B} (a1 a2 : list A) (b1 b2 : list B) :
  List.length a1 = List.length b1 ->
  combine (a1 ++ a2) (b1 ++ b2) = combine a1 b1 ++ combine a2 b2.
Proof.
  revert b1. induction a1 as [|a a1 IH]; intros [|b b1] H;
    cbn in H |- *; try discriminate; [reflexivity|].
  f_equal. apply IH. now injection H.
Qed.

Lemma combine_constant {A B} (x : list A) (b : B) :
  combine x (map (fun _ => b) x) = map (fun a => (a, b)) x.
Proof. induction x as [|a x IH]; [reflexivity|]. cbn. now rewrite IH. Qed.

Lemma ravel_meshgrid_lengths (x y : ndarray) :
  List.length (ravel (fst (meshgrid x y)))
  = List.length (ravel (snd (meshgrid x y))).
Proof.
  unfold ravel, meshgrid. cbn [fst snd rows].
  induction y as [|yi y IH]; [reflexivity|].
  cbn [map List.concat]. rewrite !length_app, IH. now rewrite length_map.
Qed.

Lemma length_grid (x y : ndarray) :
  List.length (grid x y) = (List.length y * List.length x)%nat.
Proof.
  unfold grid. induction y as [|yi y IH]; [reflexivity|].
  simpl. rewrite length_app, length_map. f_equal. exact IH.
Qed.

Lemma combine_ravel_meshgrid (x y : ndarray) :
  map (fun p => [fst p; snd p])
      (combine (ravel (fst (meshgrid x y))) (ravel (snd (meshgrid x y))))
  = grid x y.
Proof.
  unfold ravel, meshgrid, grid. cbn [fst snd rows].
  induction y as [|yi y IH]; [reflexivity|].
  cbn [map List.concat flat_map].
  rewrite combine_app_same by now rewrite length_map.
  rewrite map_app, IH, combine_constant, map_map. reflexivity.
Qed.

Lemma transpose_two_rows (a b : ndarray) :
  List.length a = List.length b ->
  rows (transpose (mkArray2 (List.length a) [a; b]))
  = map (fun p => [fst p; snd p]) (combine a b).
Proof.
  unfold transpose. cbn [rows ncols map].
  revert b. induction a as [|u a IH]; intros [|v b] H;
    cbn in H; try discriminate; [reflexivity|].
  injection H as H.
  cbn [List.length seq map combine nth fst snd].
  rewrite <- seq_shift, map_map. cbn [nth].
  apply (f_equal (cons [u; v])). now apply IH.
Qed.

Lemma coords_of_grid (x y : ndarray) (w : World) :
  coords_of (fst (meshgrid x y)) (snd (meshgrid x y)) w
  = (Returned (grid x y), w).
Proof.
  unfold coords_of, vstack.
  rewrite ravel_meshgrid_lengths, Nat.eqb_refl, bind_ret.
  unfold ret.
  rewrite <- ravel_meshgrid_lengths.
  rewrite transpose_two_rows by apply ravel_meshgrid_lengths.
  now rewrite combine_ravel_meshgrid.
Qed.

(** X5: the points handed to the objective are the Cartesian grid, row by
    row of the mesh: the first coordinate runs through [x] for each element
    of [y] in turn, so there are [len(y) * len(x)] of them; building them
    never fails and touches nothing. *)
Theorem coords_of_meshgrid :
  forall (x y : ndarray) (w : World),
    coords_of (fst (meshgrid x y)) (snd (meshgrid x y)) w
    = (Returned (grid x y), w)
    /\ List.length (grid x y) = (List.length y * List.length x)%nat.
Proof.
  intros x y w. split; [apply coords_of_grid | apply length_grid].
Qed.

(** ** [animate_de]: evaluating the objective *)

Lemma call_returned (func : Callable) (pt : ndarray) (z : float) (w : World) :
  func pt = Returned z ->
  call func pt w = (Returned z, mkWorld (rng w) (log w ++ [Evaluated pt])).
Proof. intros H. unfold call. rewrite tell_bind, H. reflexivity. Qed.

Lemma call_raised (func : Callable) (pt : ndarray) (e : PyException)
    (w : World) :
  func pt = Raised e ->
  call func pt w = (Raised e, mkWorld (rng w) (log w ++ [Evaluated pt])).
Proof. intros H. unfold call. rewrite tell_bind, H. reflexivity. Qed.

Lemma bind_raised {A B} (m : M A) (k : A -> M B) (w w' : World)
    (e : PyException) :
  m w = (Raised e, w') -> bind m k w = (Raised e, w').
Proof. intros H. unfold bind. now rewrite H. Qed.

Lemma map_call_total (func : Callable) (pts : list ndarray) :
  never_raises func ->
  forall w, exists zs,
    map_call func pts w
    = (Returned zs, mkWorld (rng w) (log w ++ map Evaluated pts))
    /\ List.length zs = List.length pts.
Proof.
  intros Htotal.
  induction pts as [|pt pts IH]; intros w.
  - exists []. cbn. rewrite app_nil_r. now destruct w.
  - destruct (Htotal pt) as [z Hz].
    destruct (IH (mkWorld (rng w) (log w ++ [Evaluated pt]))) as (zs & Hzs & Hlen).
    exists (z :: zs). split; [| cbn; now rewrite Hlen].
    cbn [map_call].
    erewrite bind_returned by (apply call_returned; exact Hz).
    erewrite bind_returned by exact Hzs.
    cbn [rng log map]. unfold ret. now rewrite <- app_assoc.
Qed.

Lemma map_call_raises (func : Callable) (pre : list ndarray) :
  forall (pt : ndarray) (post : list ndarray) (e : PyException) (w : World),
    (forall p, In p pre -> exists z, func p = Returned z) ->
    func pt = Raised e ->
    map_call func (pre ++ pt :: post) w
    = (Raised e, mkWorld (rng w) (log w ++ map Evaluated (pre ++ [pt]))).
Proof.
  induction pre as [|p pre IH]; intros pt post e w Hpre Hpt.
  - cbn [app map_call map].
    apply bind_raised. now apply call_raised.
  - destruct (Hpre p (or_introl eq_refl)) as [z Hz].
    cbn [app map_call].
    erewrite bind_returned by (apply call_returned; exact Hz).
    erewrite bind_raised.
    2:{ apply IH; [| exact Hpt]. intros q Hq. apply Hpre. now right. }
    cbn [rng log map]. now rewrite <- app_assoc.
Qed.

Lemma length_chunks (r c : nat) (a : ndarray) :
  List.length (chunks r c a) = r.
Proof.
  revert a. induction r as [|r IH]; intros a; [reflexivity|].
  cbn [chunks List.length]. now rewrite IH.
Qed.

(** X6: with two bounds and an objective that returns everywhere,
    [animate_de] evaluates the objective on every point of the grid, in grid
    order and nowhere else, before any drawing starts; [Z] then has the shape
    of the mesh, [frames] is [len(history)] unless given, and with the 200
    samples that [np.linspace] returns per axis that is 40000 evaluations. *)
Theorem animate_de_evaluates_the_grid :
  forall np_linspace np_exp render func history x0 x1 y0 y1 frames filename w,
    never_raises func ->
    List.length (np_linspace x0 x1 200) = 200%nat ->
    List.length (np_linspace y0 y1 200) = 200%nat ->
    exists Z : ndarray2,
      animate_de np_linspace np_exp render func history
                 [(x0, x1); (y0, y1)] frames filename w
      = render (x0, x1) (y0, y1)
               (fst (meshgrid (np_linspace x0 x1 200) (np_linspace y0 y1 200)))
               (snd (meshgrid (np_linspace x0 x1 200) (np_linspace y0 y1 200)))
               Z (update np_exp history)
               (match frames with None => len history | Some n => n end)
               filename
               (mkWorld (rng w)
                  (log w ++ map Evaluated
                     (grid (np_linspace x0 x1 200) (np_linspace y0 y1 200))))
      /\ shape Z = (200, 200)%nat
      /\ len (grid (np_linspace x0 x1 200) (np_linspace y0 y1 200)) = 40000.
Proof.
  intros np_linspace np_exp render func history x0 x1 y0 y1 frames filename w
         Htotal Hx Hy.
  set (x := np_linspace x0 x1 200) in *.
  set (y := np_linspace y0 y1 200) in *.
  destruct (map_call_total func (grid x y) Htotal w) as (zs & Hzs & Hlen).
  rewrite length_grid in Hlen.
  exists (mkArray2 (List.length x) (chunks (List.length y) (List.length x) zs)).
  split; [| split].
  - unfold animate_de, assert_.
    change (len [(x0, x1); (y0, y1)] =? 2) with true. cbv iota.
    rewrite bind_ret. cbn [nth fst snd]. fold x y.
    erewrite bind_returned by apply coords_of_grid.
    erewrite bind_returned by exact Hzs.
    unfold reshape, np_array, shape, meshgrid.
    cbn [fst snd rows ncols]. rewrite length_map, Hlen, Nat.eqb_refl.
    now rewrite bind_ret.
  - unfold shape. cbn [rows ncols]. now rewrite length_chunks, Hx, Hy.
  - unfold len. rewrite length_grid, Hx, Hy. reflexivity.
Qed.

Lemma animate_de_evaluates_the_grid_witness :
  snd (animate_de linspace_sketch (fun a => a)
                  (fun _ _ _ _ _ _ _ _ => ret tt)
                  (sphere sum_left_to_right) [] BOUNDS None "de_animation.gif" world0)
  = mkWorld 0
      (map Evaluated
         (grid (linspace_sketch (-5)%float 5%float 200) (linspace_sketch (-5)%float 5%float 200))).
Proof.
  destruct (animate_de_evaluates_the_grid
              linspace_sketch (fun a => a) (fun _ _ _ _ _ _ _ _ => ret tt)
              (sphere sum_left_to_right) [] (-5)%float 5%float (-5)%float 5%float
              None "de_animation.gif" world0) as (Z & Hrun & _).
  - intros pt. eexists. reflexivity.
  - vm_compute. reflexivity.
  - vm_compute. reflexivity.
  - exact (f_equal snd Hrun).
Defined.

(** X7: when the objective raises at a point of the grid, having returned at
    the points before it, [animate_de] ends in that very exception right
    there: the points up to and including the failing one have been
    evaluated, the later ones have not, and nothing is drawn or saved. *)
Theorem animate_de_propagates_objective_exception :
  forall np_linspace np_exp render func history x0 x1 y0 y1 frames filename w
         pre pt post e,
    grid (np_linspace x0 x1 200) (np_linspace y0 y1 200) = pre ++ pt :: post ->
    (forall p, In p pre -> exists z, func p = Returned z) ->
    func pt = Raised e ->
    animate_de np_linspace np_exp render func history
               [(x0, x1); (y0, y1)] frames filename w
    = (Raised e, mkWorld (rng w) (log w ++ map Evaluated (pre ++ [pt]))).
Proof.
  intros np_linspace np_exp render func history x0 x1 y0 y1 frames filename w
         pre pt post e Hgrid Hpre Hpt.
  unfold animate_de, assert_.
  change (len [(x0, x1); (y0, y1)] =? 2) with true. cbv iota.
  rewrite bind_ret. cbn [nth fst snd].
  erewrite bind_returned by apply coords_of_grid.
  rewrite Hgrid.
  apply bind_raised. now apply map_call_raises.
Qed.

Lemma animate_de_propagates_objective_exception_witness :
  fst (animate_de linspace_sketch (fun a => a)
                  (fun _ _ _ _ _ _ _ _ => ret tt)
                  failing_objective [] BOUNDS None "de_animation.gif" world0)
  = Raised (ZeroDivisionError "float division by zero").
Proof.
  assert (Hlen : List.length (grid (linspace_sketch (-5)%float 5%float 200)
                                   (linspace_sketch (-5)%float 5%float 200))
                 = (200 * 200)%nat).
  { rewrite length_grid.
    replace (List.length (linspace_sketch (-5)%float 5%float 200))
      with 200%nat by (vm_compute; reflexivity).
    reflexivity. }
  destruct (grid (linspace_sketch (-5)%float 5%float 200)
                 (linspace_sketch (-5)%float 5%float 200))
    as [|pt post] eqn:Hgrid; [discriminate Hlen|].
  assert (Hrun := animate_de_propagates_objective_exception
             linspace_sketch (fun a => a) (fun _ _ _ _ _ _ _ _ => ret tt)
             failing_objective [] (-5)%float 5%float (-5)%float 5%float
             None "de_animation.gif" world0
             [] pt post (ZeroDivisionError "float division by zero")
             Hgrid (fun p (H : In p []) => match H with end) eq_refl).
  exact (f_equal fst Hrun).
Defined.

(** ** [update]: what a frame draws *)

Lemma column_in_bounds (pop : ndarray2) (k : nat) :
  (k < ncols pop)%nat ->
  column pop k = inl (map (fun r => nth k r 0%float) (rows pop)).
Proof.
  intros H. unfold column.
  now replace (k <? ncols pop)%nat with true by (symmetry; now apply Nat.ltb_lt).
Qed.

Lemma skipn_nth_error {A} (l : list A) (a : nat) (x : A) :
  nth_error l a = Some x -> skipn a l = x :: skipn (S a) l.
Proof.
  revert a. induction l as [|y l IH]; intros [|a] H; cbn in H; try discriminate.
  - now injection H as ->.
  - cbn [skipn]. rewrite (IH a H). reflexivity.
Qed.

(** The loop, run over the indices [a, a + 1, .., a + n - 1] that all fall
    inside the history. *)
Lemma scatter_generations_inside (np_exp : float -> float)
    (history : list ndarray2) (i : Z) :
  Forall (fun pop => (2 <= ncols pop)%nat) history ->
  forall (n a : nat) (calls : list PlotCall),
    (a + n <= List.length history)%nat ->
    scatter_generations np_exp history i (map Z.of_nat (seq a n)) calls
    = (ReturnedUnit,
       calls ++ map (fun jp => scatter_of np_exp i (Z.of_nat (fst jp)) (snd jp))
                    (combine (seq a n) (firstn n (skipn a history)))).
Proof.
  intros Hcols. induction n as [|n IH]; intros a calls Hlen.
  - cbn. now rewrite app_nil_r.
  - cbn [seq map scatter_generations]. rewrite Nat2Z.id.
    destruct (nth_error history a) as [pop|] eqn:Hpop.
    2:{ apply nth_error_None in Hpop. lia. }
    assert (Hpop2 : (2 <= ncols pop)%nat).
    { eapply (proj1 (Forall_forall _ _) Hcols), nth_error_In, Hpop. }
    rewrite !column_in_bounds by lia.
    rewrite IH by lia.
    rewrite (skipn_nth_error _ _ _ Hpop).
    cbn [firstn combine map fst snd]. rewrite <- app_assoc. reflexivity.
Qed.

(** X8: for a frame index inside the history, whose populations have at
    least two columns, [update] returns [()] after clearing the old scatter
    plots, setting the title and scattering the generations [0 .. i] in that
    order, oldest first, each with the age [i - j] behind its transparency. *)
Theorem update_draws_generations_up_to_frame :
  forall (np_exp : float -> float) (history : list ndarray2) (i : Z),
    0 <= i < len history ->
    Forall (fun pop => (2 <= ncols pop)%nat) history ->
    update np_exp history i
    = (ReturnedUnit,
       [RemovePathCollections; SetTitle ("Generation " ++ string_of_Z i)]
         ++ scatters_of np_exp i (firstn (Z.to_nat (i + 1)) history)).
Proof.
  intros np_exp history i Hi Hcols. unfold update, range, len in *.
  rewrite scatter_generations_inside by (trivial; lia).
  unfold scatters_of. cbn [skipn].
  rewrite length_firstn, Nat.min_l by lia. reflexivity.
Qed.

Lemma update_draws_generations_up_to_frame_witness :
  update (fun a => a)
         [mkArray2 2 [[1%float; 2%float]; [3%float; 4%float]];
          mkArray2 2 [[5%float; 6%float]; [7%float; 8%float]]] 1
  = (ReturnedUnit,
     [RemovePathCollections; SetTitle "Generation 1";
      Scatter [1%float; 3%float] [2%float; 4%float] (-0.1)%float;
      Scatter [5%float; 7%float] [6%float; 8%float] 0%float]).
Proof.
  rewrite (update_draws_generations_up_to_frame (fun a => a)).
  - reflexivity.
  - cbn. lia.
  - repeat constructor.
Defined.

Lemma scatter_generations_app (np_exp : float -> float)
    (history : list ndarray2) (i : Z) (js1 js2 : list Z) :
  forall calls calls1,
    scatter_generations np_exp history i js1 calls = (ReturnedUnit, calls1) ->
    scatter_generations np_exp history i (js1 ++ js2) calls
    = scatter_generations np_exp history i js2 calls1.
Proof.
  induction js1 as [|j js1 IH]; intros calls calls1 H.
  - cbn in H. now injection H as ->.
  - cbn [app scatter_generations] in H |- *.
    destruct (nth_error history (Z.to_nat j)) as [pop|]; [|discriminate H].
    destruct (column pop 0) as [xs|]; [|discriminate H].
    destruct (column pop 1) as [ys|]; [|discriminate H].
    now apply IH.
Qed.

(** X9: for a frame index at or past the end of the history (what an explicit
    [frames] larger than [len(history)] leads to) and below [2^53], [update]
    raises [IndexError], and does so only after it has cleared the axes, set
    the title and scattered every generation the history holds. *)
Theorem update_past_history_raises_IndexError :
  forall (np_exp : float -> float) (history : list ndarray2) (i : Z),
    len history <= i < 2 ^ 53 ->
    Forall (fun pop => (2 <= ncols pop)%nat) history ->
    update np_exp history i
    = (IndexError "list index out of range",
       [RemovePathCollections; SetTitle ("Generation " ++ string_of_Z i)]
         ++ scatters_of np_exp i history).
Proof.
  intros np_exp history i [Hi _] Hcols. unfold update, range, len in *.
  replace (Z.to_nat (i + 1))
    with (List.length history + S (Z.to_nat i - List.length history))%nat
    by lia.
  rewrite seq_app, map_app.
  erewrite scatter_generations_app
    by (apply scatter_generations_inside; [exact Hcols | lia]).
  cbn [skipn Nat.add seq map scatter_generations]. rewrite Nat2Z.id.
  rewrite firstn_all.
  replace (nth_error history (List.length history)) with (@None ndarray2)
    by (symmetry; now apply nth_error_None).
  reflexivity.
Qed.

Lemma update_past_history_raises_IndexError_witness :
  update (fun a => a) [mkArray2 2 [[1%float; 2%float]]] 1
  = (IndexError "list index out of range",
     [RemovePathCollections; SetTitle "Generation 1";
      Scatter [1%float] [2%float] (-0.1)%float]).
Proof.
  rewrite (update_past_history_raises_IndexError (fun a => a)).
  - reflexivity.
  - split; [cbn; lia | reflexivity].
  - repeat constructor.
Defined.

(** X10: when the first population of the history has fewer than two columns
    (a search space of one dimension), every frame from [0] to below [2^53]
    fails: [update] raises [IndexError] before it scatters anything. *)
Theorem update_needs_two_columns :
  forall (np_exp : float -> float) (pop : ndarray2)
         (history : list ndarray2) (i : Z),
    0 <= i < 2 ^ 53 ->
    (ncols pop < 2)%nat ->
    exists msg,
      update np_exp (pop :: history) i
      = (IndexError msg,
         [RemovePathCollections; SetTitle ("Generation " ++ string_of_Z i)]).
Proof.
  intros np_exp pop history i [Hi _] Hcols. unfold update, range.
  replace (Z.to_nat (i + 1)) with (S (Z.to_nat i)) by lia.
  cbn [seq map scatter_generations Z.of_nat Z.to_nat nth_error].
  unfold column.
  destruct (ncols pop) as [|[|c]]; [| |lia]; cbn [Nat.ltb Nat.leb]; eauto.
Qed.

Lemma update_needs_two_columns_witness :
  exists msg,
    update (fun a => a) [mkArray2 1 [[1%float]; [2%float]]] 0
    = (IndexError msg, [RemovePathCollections; SetTitle "Generation 0"]).
Proof.
  apply (update_needs_two_columns (fun a => a)
           (mkArray2 1 [[1%float]; [2%float]]) [] 0).
  - split; [lia | reflexivity].
  - cbn. lia.
Defined.
